(** * migrate-parameter-store: a shallow embedding of [main.go]

    The program copies SSM parameters from the old naming hierarchy
    [/asset-accounting/{env}/{var}] to the new one
    [/asset-accounting/serviceplatform/{env}/{var}].

    The AWS SDK is an external collaborator: its operations are taken as
    handlers over an abstract remote state (record [Sdk]).  Go functions
    that talk to the SDK or print are computations in the monad [M]: they
    thread the remote state and an ordered trace of the observable events
    (SDK requests, lines on stdout, the line of [log.Fatalf]).  Go pointers
    are [option]s; dereferencing [nil] panics. *)

From Stdlib Require Import ZArith Lia.
From stdpp Require Import base strings list gmap.

Open Scope string_scope.

(** ** Go runtime fragments *)

(** The line feed of the format strings. *)
Definition LF : string := String (Ascii.ascii_of_nat 10) "".

(** Go [error] values.  The program only ever formats them with [%v]. *)
Inductive error : Type :=
  | APIError (code message : string)   (* an error response of the service *)
  | errorString (s : string).          (* fmt.Errorf *)

Definition Error (e : error) : string :=
  match e with
  | APIError code message => code +:+ ": " +:+ message
  | errorString s => s
  end.

(** [fmt.Errorf(prefix ++ "%v", err)] *)
Definition Errorf (prefix : string) (err : error) : error :=
  errorString (prefix +:+ Error err).

(** [aws.String], [aws.Bool], [aws.ToString] *)
Definition aws_String (s : string) : option string := Some s.
Definition aws_Bool (b : bool) : option bool := Some b.
Definition aws_ToString (p : option string) : string := default "" p.

(** ** The SDK types the program touches (package [ssm] and [ssm/types]) *)

(** [types.ParameterType] is a Go string type with three declared values. *)
Definition ParameterType : Type := string.
Definition ParameterTypeString : ParameterType := "String".
Definition ParameterTypeStringList : ParameterType := "StringList".
Definition ParameterTypeSecureString : ParameterType := "SecureString".
Definition supportedTypes : list ParameterType :=
  [ParameterTypeString; ParameterTypeStringList; ParameterTypeSecureString].

(** [types.Parameter] ([Parameter] is a reserved word here). *)
Module SsmParameter.
Record t : Type := mk { Name : option string; Type_ : ParameterType; Value : option string }.
End SsmParameter.

Module ParameterMetadata.
Record t : Type := mk { Name : option string; Description : option string; Type_ : ParameterType }.
End ParameterMetadata.

Module ParameterStringFilter.
Record t : Type := mk { Key : option string; Values : list string }.
End ParameterStringFilter.

Module GetParameterInput.
Record t : Type := mk { Name : option string; WithDecryption : option bool }.
End GetParameterInput.

Module GetParameterOutput.
Record t : Type := mk { Parameter_ : option SsmParameter.t }.
End GetParameterOutput.

Module DescribeParametersInput.
Record t : Type := mk { ParameterFilters : list ParameterStringFilter.t; NextToken : option string }.
(** [&ssm.DescribeParametersInput{}] *)
Definition zero : t := mk [] None.
End DescribeParametersInput.

Module DescribeParametersOutput.
Record t : Type := mk { Parameters : list ParameterMetadata.t; NextToken : option string }.
End DescribeParametersOutput.

Module PutParameterInput.
Record t : Type := mk {
  Name : option string;
  Value : option string;
  Type_ : ParameterType;
  Description : option string;
  Overwrite : option bool      (* nil unless the caller sets it *)
}.
End PutParameterInput.

(** ** Observable events, outcomes *)

Inductive event : Type :=
  | LoadDefaultConfigCall (profile : string)
  | GetParameterCall (input : GetParameterInput.t)
  | DescribeParametersCall (input : DescribeParametersInput.t)
  | PutParameterCall (input : PutParameterInput.t)
  | Stdout (line : string)
  | Fatal (line : string).        (* log.Fatalf: its message on stderr *)

(** A store operation is a read, a describe or a write. *)
Definition is_store_op (e : event) : bool :=
  match e with
  | GetParameterCall _ | DescribeParametersCall _ | PutParameterCall _ => true
  | _ => false
  end.

(** The put requests of a trace, in order. *)
Definition puts (tr : list event) : list PutParameterInput.t :=
  omap (λ e, match e with PutParameterCall i => Some i | _ => None end) tr.


(** How a Go call ends. *)
Inductive outcome (A : Type) : Type :=
  | Returned (a : A)
  | Panicked (msg : string)
  | Exited (code : Z)
  | OutOfFuel.                      (* a [for] loop outran the model's fuel *)
Arguments Returned {A} a.
Arguments Panicked {A} msg.
Arguments Exited {A} code.
Arguments OutOfFuel {A}.

Definition nilDereference : string :=
  "runtime error: invalid memory address or nil pointer dereference".

(** The SDK as the program sees it: [Config] is what
    [config.LoadDefaultConfig] yields, [Remote] the state of the store. *)
Record Sdk (Remote Config : Type) : Type := mkSdk {
  LoadDefaultConfig : string → error + Config;
  GetParameter :
    Config → GetParameterInput.t → Remote → (error + GetParameterOutput.t) * Remote;
  DescribeParameters :
    Config → DescribeParametersInput.t → Remote → (error + DescribeParametersOutput.t) * Remote;
  PutParameter :
    Config → PutParameterInput.t → Remote → option error * Remote
}.
Arguments LoadDefaultConfig {Remote Config} _ _.
Arguments GetParameter {Remote Config} _ _ _ _.
Arguments DescribeParameters {Remote Config} _ _ _ _.
Arguments PutParameter {Remote Config} _ _ _ _.

(** [*ssm.Client]: [ssm.NewFromConfig cfg]. *)
Record Client (Config : Type) : Type := NewFromConfig { options : Config }.
Arguments NewFromConfig {Config} _.
Arguments options {Config} _.

(** ** The name mapper (pure string formatting) *)

(** generateOldVariableName: [/asset-accounting/{environment}/{variableName}] *)
Definition generateOldVariableName (environment variableName : string) : string :=
  "/asset-accounting/" +:+ environment +:+ "/" +:+ variableName.

(** generateNewVariableName:
    [/asset-accounting/serviceplatform/{environment}/{variableName}] *)
Definition generateNewVariableName (environment variableName : string) : string :=
  "/asset-accounting/serviceplatform/" +:+ environment +:+ "/" +:+ variableName.

(** The variable identifiers listed in generateVariableNameMap. *)
Definition serverlessParams : list string := ["REDISCLOUD_URL"].

(** The body of the loop of generateVariableNameMap. *)
Definition insertNames (environment : string)
    (variableNameMap : gmap string string) (param : string) : gmap string string :=
  let oldName := generateOldVariableName environment param in
  let newName := generateNewVariableName environment param in
  <[oldName := newName]> variableNameMap.

Definition generateVariableNameMap (environment : string) : gmap string string :=
  foldl (insertNames environment) ∅ serverlessParams.

(** A Go [range] over a map visits every entry once, in an order the
    runtime picks: any permutation of the entries. *)
Definition range_order (m : gmap string string) (order : list (string * string)) : Prop :=
  order ≡ₚ map_to_list m.

(** ** The monad of Go calls *)

(** What a run has touched so far: the remote store and the ordered trace
    of observable events. *)
Record World (Remote : Type) : Type := mkWorld { remote : Remote; trace : list event }.
Arguments mkWorld {Remote} _ _.
Arguments remote {Remote} _.
Arguments trace {Remote} _.

Definition M (Remote A : Type) : Type := World Remote → outcome A * World Remote.

Definition ret {Remote A} (a : A) : M Remote A := λ w, (Returned a, w).

Definition bind {Remote A B} (m : M Remote A) (k : A → M Remote B) : M Remote B :=
  λ w,
    match m w with
    | (Returned a, w') => k a w'
    | (Panicked msg, w') => (Panicked msg, w')
    | (Exited code, w') => (Exited code, w')
    | (OutOfFuel, w') => (OutOfFuel, w')
    end.

#[global] Instance M_ret {Remote} : MRet (M Remote) := λ A, ret.
#[global] Instance M_bind {Remote} : MBind (M Remote) := λ A B k m, bind m k.

Definition emit {Remote} (e : event) : M Remote unit :=
  λ w, (Returned (), mkWorld (remote w) (trace w ++ [e])%list).

(** [fmt.Printf] with the format already applied. *)
Definition Printf {Remote} (line : string) : M Remote unit := emit (Stdout line).

(** [log.Fatalf]: print the line, then [os.Exit(1)]. *)
Definition Fatalf {Remote A} (line : string) : M Remote A :=
  λ w, (Exited 1, mkWorld (remote w) (trace w ++ [Fatal line])%list).

Definition panic {Remote A} (msg : string) : M Remote A := λ w, (Panicked msg, w).

(** A request to the service: it is recorded, and the service answers from
    its current state and moves to its next one. *)
Definition request {Remote A} (e : event) (handler : Remote → A * Remote) : M Remote A :=
  λ w, let '(r, st) := handler (remote w) in
       (Returned r, mkWorld st (trace w ++ [e])%list).

(** [*p] *)
Definition deref {Remote A} (p : option A) : M Remote A :=
  match p with
  | Some a => ret a
  | None => panic nilDereference
  end.

(** What a [for] body asks for next. *)
Inductive control (S R : Type) : Type :=
  | Continue (s : S)
  | Break (s : S)
  | Return (r : R).
Arguments Continue {S R} s.
Arguments Break {S R} s.
Arguments Return {S R} r.

(** [for cond(s) { body }] over the loop's variables [s]: [inl s] when the
    loop ends or breaks, [inr r] when the body returns from the function. *)
Fixpoint for_loop {Remote S R} (fuel : nat) (cond : S → bool)
    (body : S → M Remote (control S R)) (s : S) : M Remote (S + R) :=
  match fuel with
  | O => λ w, (OutOfFuel, w)
  | Datatypes.S fuel' =>
      if cond s then
        c ← body s;
        match c with
        | Continue s' => for_loop fuel' cond body s'
        | Break s' => mret (inl s')
        | Return r => mret (inr r)
        end
      else mret (inl s)
  end.

(** [for k, v := range m { body }] along the order the runtime picked. *)
Fixpoint range {Remote} (order : list (string * string))
    (body : string → string → M Remote unit) : M Remote unit :=
  match order with
  | [] => mret ()
  | (k, v) :: rest => body k v;; range rest body
  end.

(** ** The program *)

(** [ssm.DescribeParametersPaginator] of the SDK (default options: no page
    limit, [StopOnDuplicateToken] off). *)
Module DescribeParametersPaginator.
Record t : Type := mk {
  params : DescribeParametersInput.t;
  nextToken : option string;
  firstPage : bool
}.
End DescribeParametersPaginator.

Definition NewDescribeParametersPaginator (params : DescribeParametersInput.t)
    : DescribeParametersPaginator.t :=
  DescribeParametersPaginator.mk params (DescribeParametersInput.NextToken params) true.

Definition HasMorePages (p : DescribeParametersPaginator.t) : bool :=
  DescribeParametersPaginator.firstPage p
  || match DescribeParametersPaginator.nextToken p with
     | Some tok => negb (String.length tok =? 0)%nat
     | None => false
     end.

Section Program.
Context {Remote Config : Type} (sdk : Sdk Remote Config).

Local Abbreviation M := (M Remote).

(** A method call on [client]: the receiver is dereferenced, then the
    request goes out. *)
Definition client_GetParameter (client : option (Client Config))
    (input : GetParameterInput.t) : M (error + GetParameterOutput.t) :=
  c ← deref client;
  request (GetParameterCall input) (GetParameter sdk (options c) input).

Definition client_DescribeParameters (client : option (Client Config))
    (input : DescribeParametersInput.t) : M (error + DescribeParametersOutput.t) :=
  c ← deref client;
  request (DescribeParametersCall input) (DescribeParameters sdk (options c) input).

Definition client_PutParameter (client : option (Client Config))
    (input : PutParameterInput.t) : M (option error) :=
  c ← deref client;
  request (PutParameterCall input) (PutParameter sdk (options c) input).

(** [paginator.NextPage]: the page (or the error) and the paginator after
    the call. *)
Definition NextPage (client : option (Client Config)) (p : DescribeParametersPaginator.t)
    : M ((option DescribeParametersOutput.t * option error) * DescribeParametersPaginator.t) :=
  if negb (HasMorePages p) then mret ((None, Some (errorString "no more pages available")), p)
  else
    let params :=
      DescribeParametersInput.mk
        (DescribeParametersInput.ParameterFilters (DescribeParametersPaginator.params p))
        (DescribeParametersPaginator.nextToken p) in
    r ← client_DescribeParameters client params;
    match r with
    | inl err => mret ((None, Some err), p)
    | inr result =>
        mret ((Some result, None),
              DescribeParametersPaginator.mk (DescribeParametersPaginator.params p)
                (DescribeParametersOutput.NextToken result) false)
    end.

(** getAllParameters.  The loop variables are the paginator and the
    slice [parameters]; every pass through the body ends in [return] or
    [break]. *)
Definition getAllParameters (fuel : nat) (client : option (Client Config))
    : M (list ParameterMetadata.t * option error) :=
  let parameters : list ParameterMetadata.t := [] in
  let input := DescribeParametersInput.zero in
  let paginator := NewDescribeParametersPaginator input in
  r ← for_loop fuel (λ '(paginator, _), HasMorePages paginator)
        (λ '(paginator, parameters),
           '((page, err), paginator) ← NextPage client paginator;
           match err with
           | Some err => mret (Return ([], Some err))
           | None =>
               page ← deref page;
               let parameters := (parameters ++ DescribeParametersOutput.Parameters page)%list in
               mret (Break (paginator, parameters))
           end)
        (paginator, parameters);
  match r with
  | inr early => mret early
  | inl (_, parameters) => mret (parameters, None)
  end.

(** getParameterDetails *)
Definition getParameterDetails (client : option (Client Config)) (name : string)
    : M (option SsmParameter.t * option error) :=
  Printf ("Getting parameter details for: " +:+ name +:+ LF);;
  let input := GetParameterInput.mk (aws_String name) (aws_Bool true) in
  r ← client_GetParameter client input;
  match r with
  | inl err => mret (None, Some err)
  | inr result => mret (GetParameterOutput.Parameter_ result, None)
  end.

(** connectToAWSByProfile *)
Definition connectToAWSByProfile (profile : string)
    : M (option (Client Config) * option error) :=
  emit (LoadDefaultConfigCall profile);;
  match LoadDefaultConfig sdk profile with
  | inl err => mret (None, Some (Errorf "unable to load SDK config, " err))
  | inr cfg =>
      let client := NewFromConfig cfg in
      mret (Some client, None)
  end.

(** getParameterDescription *)
Definition getParameterDescription (client : option (Client Config)) (name : string)
    : M (string * option error) :=
  let input :=
    DescribeParametersInput.mk
      [ParameterStringFilter.mk (aws_String "Name") [name]] None in
  r ← client_DescribeParameters client input;
  match r with
  | inl err => mret ("", Some err)
  | inr output =>
      match DescribeParametersOutput.Parameters output with
      | [] => mret ("", Some (errorString "parameter not found"))
      | first :: _ => mret (aws_ToString (ParameterMetadata.Description first), None)
      end
  end.

(** putParameter *)
Definition putParameter (client : option (Client Config)) (name description : string)
    (dest : option SsmParameter.t) : M (option error) :=
  d ← deref dest;
  value ← deref (SsmParameter.Value d);
  let input :=
    PutParameterInput.mk (aws_String name) (aws_String value) (SsmParameter.Type_ d)
      (aws_String description) None in
  client_PutParameter client input.

(** copyParameter *)
Definition copyParameter (client : option (Client Config)) (sourceName destName : string)
    : M (option error) :=
  Printf (" =====================" +:+ LF);;
  '(sourceParam, err) ← getParameterDetails client sourceName;
  match err with
  | Some err => mret (Some (Errorf "failed to get source parameter details: " err))
  | None =>
      '(description, err) ← getParameterDescription client sourceName;
      match err with
      | Some err => mret (Some (Errorf "failed to get source parameter description: " err))
      | None =>
          sp ← deref sourceParam;
          spName ← deref (SsmParameter.Name sp);
          spValue ← deref (SsmParameter.Value sp);
          Printf ("name: " +:+ spName +:+ ", value: " +:+ spValue +:+ ", type: "
                  +:+ SsmParameter.Type_ sp +:+ ", description: " +:+ description
                  +:+ " " +:+ LF);;
          err ← putParameter client destName description sourceParam;
          match err with
          | Some err => mret (Some (Errorf "failed to put destination parameter: " err))
          | None =>
              Printf ("Success copied parameter from " +:+ sourceName +:+ " to "
                      +:+ destName +:+ LF);;
              mret None
          end
      end
  end.

(** The body of the [range] loop of main. *)
Definition main_body (client : option (Client Config)) (oldEnvName newEnName : string)
    : M unit :=
  Printf ("oldName: " +:+ oldEnvName +:+ " == newName: " +:+ newEnName +:+ LF);;
  err ← copyParameter client oldEnvName newEnName;
  match err with
  | Some err => Fatalf ("failed to copy parameter, " +:+ Error err)
  | None => mret ()
  end.

(** main from its second line on, for the environment label of its first
    line; [order] is the order in which the [range] visits the map. *)
Definition main_for (environemnt : string) (order : list (string * string)) : M unit :=
  let profile := "aa_stg" in
  let profile := if String.eqb environemnt "production" then "aa_prod" else profile in
  '(client, err) ← connectToAWSByProfile profile;
  match err with
  | Some err => Fatalf ("failed to connect to AWS, " +:+ Error err)
  | None =>
      let oldToNewEnvName := generateVariableNameMap environemnt in
      range order (main_body client)
  end.

(** main *)
Definition main (order : list (string * string)) : M unit :=
  let environemnt := "staging" in
  main_for environemnt order.

(** A run of main: the runtime picks the order of the [range]. *)
Definition main_runs (environemnt : string) (w : World Remote)
    (res : outcome unit * World Remote) : Prop :=
  ∃ order, range_order (generateVariableNameMap environemnt) order
           ∧ main_for environemnt order w = res.
End Program.

(** ** The traces of a copy *)

(** The requests copyParameter builds. *)
Definition getInput (name : string) : GetParameterInput.t :=
  GetParameterInput.mk (Some name) (Some true).

Definition describeInput (name : string) : DescribeParametersInput.t :=
  DescribeParametersInput.mk [ParameterStringFilter.mk (Some "Name") [name]] None.

Definition putInput (destName : string) (sp : SsmParameter.t) (description : string)
    : PutParameterInput.t :=
  PutParameterInput.mk (Some destName) (SsmParameter.Value sp) (SsmParameter.Type_ sp)
    (Some description) None.

(** What copyParameter has emitted once the value fetch is done. *)
Definition fetched (sourceName : string) : list event :=
  [Stdout (" =====================" +:+ LF);
   Stdout ("Getting parameter details for: " +:+ sourceName +:+ LF);
   GetParameterCall (getInput sourceName)].

(** ... once the description fetch is done as well. *)
Definition described (sourceName : string) : list event :=
  (fetched sourceName ++ [DescribeParametersCall (describeInput sourceName)])%list.

(** ... and once the write has been sent. *)
Definition written (sourceName destName : string) (sp : SsmParameter.t)
    (description : string) : list event :=
  (described sourceName
   ++ [Stdout ("name: " +:+ aws_ToString (SsmParameter.Name sp)
               +:+ ", value: " +:+ aws_ToString (SsmParameter.Value sp)
               +:+ ", type: " +:+ SsmParameter.Type_ sp
               +:+ ", description: " +:+ description +:+ " " +:+ LF);
       PutParameterCall (putInput destName sp description)])%list.

(** The progress line that opens a pair in main. *)
Definition announced (oldEnvName newEnName : string) : event :=
  Stdout ("oldName: " +:+ oldEnvName +:+ " == newName: " +:+ newEnName +:+ LF).

(** No put request of the trace sets the overwrite flag. *)
Definition overwrite_unset (tr : list event) : Prop :=
  Forall (λ input, PutParameterInput.Overwrite input = None) (puts tr).

(** The store operations of a trace, in order. *)
Definition store_ops (tr : list event) : list event := List.filter is_store_op tr.

(** The profile main picks for an environment label. *)
Definition profile_of (environemnt : string) : string :=
  if decide (environemnt = "production") then "aa_prod" else "aa_stg".

(** The line copyParameter prints last on success. *)
Definition succeeded (sourceName destName : string) : event :=
  Stdout ("Success copied parameter from " +:+ sourceName +:+ " to " +:+ destName +:+ LF).

(** ** An in-memory parameter store

    A stand-in for the remote service with the four operations the
    program uses: parameters are kept in listing order, listings come in
    pages of [pageSize] with the name of the next parameter as token, and a
    put onto an existing name is refused unless the request asks to
    overwrite. *)
Module Fake.
Record entry : Type := mkEntry {
  value : string;
  type_ : ParameterType;
  description : option string
}.

Definition Store : Type := list (string * entry).

(** The configuration of a profile is the profile's name. *)
Definition Cfg : Type := string.

Definition profiles : list string := ["aa_stg"; "aa_prod"].

Definition pageSize : nat := 2.

Fixpoint find (name : string) (st : Store) : option entry :=
  match st with
  | [] => None
  | (n, e) :: rest => if String.eqb n name then Some e else find name rest
  end.

Fixpoint replace (name : string) (e : entry) (st : Store) : Store :=
  match st with
  | [] => [(name, e)]
  | (n, e') :: rest =>
      if String.eqb n name then (n, e) :: rest else (n, e') :: replace name e rest
  end.

Definition metadata (ne : string * entry) : ParameterMetadata.t :=
  ParameterMetadata.mk (Some (fst ne)) (description (snd ne)) (type_ (snd ne)).

Definition loadDefaultConfig (profile : string) : error + Cfg :=
  if existsb (String.eqb profile) profiles then inr profile
  else inl (errorString ("failed to get shared config profile, " +:+ profile)).

Definition getParameter (_ : Cfg) (input : GetParameterInput.t) (st : Store)
    : (error + GetParameterOutput.t) * Store :=
  match GetParameterInput.Name input with
  | None => (inl (APIError "ValidationException" "missing Name"), st)
  | Some name =>
      match find name st with
      | None => (inl (APIError "ParameterNotFound" name), st)
      | Some e =>
          (inr (GetParameterOutput.mk
                  (Some (SsmParameter.mk (Some name) (type_ e) (Some (value e))))), st)
      end
  end.

(** An entry passes when every [Name] filter lists its name. *)
Definition passes (filters : list ParameterStringFilter.t) (ne : string * entry) : bool :=
  forallb
    (λ f, match ParameterStringFilter.Key f with
          | Some "Name" => existsb (String.eqb (fst ne)) (ParameterStringFilter.Values f)
          | _ => true
          end)
    filters.

Fixpoint from (tok : string) (st : Store) : Store :=
  match st with
  | [] => []
  | (n, e) :: rest => if String.eqb n tok then st else from tok rest
  end.

Definition describeParameters (_ : Cfg) (input : DescribeParametersInput.t) (st : Store)
    : (error + DescribeParametersOutput.t) * Store :=
  let listing := List.filter (passes (DescribeParametersInput.ParameterFilters input)) st in
  let start :=
    match DescribeParametersInput.NextToken input with
    | None => listing
    | Some tok => from tok listing
    end in
  (inr (DescribeParametersOutput.mk
          (List.map metadata (take pageSize start))
          (fst <$> head (drop pageSize start))), st).

Definition putParameter (_ : Cfg) (input : PutParameterInput.t) (st : Store)
    : option error * Store :=
  match PutParameterInput.Name input, PutParameterInput.Value input with
  | Some name, Some v =>
      let e := mkEntry v (PutParameterInput.Type_ input) (PutParameterInput.Description input) in
      match find name st, PutParameterInput.Overwrite input with
      | Some _, Some true | None, _ => (None, replace name e st)
      | Some _, _ => (Some (APIError "ParameterAlreadyExists" name), st)
      end
  | _, _ => (Some (APIError "ValidationException" "missing Name or Value"), st)
  end.

Definition sdk : Sdk Store Cfg :=
  mkSdk Store Cfg loadDefaultConfig getParameter describeParameters putParameter.

Definition client (profile : string) : option (Client Cfg) := Some (NewFromConfig profile).

(** The source parameter of the copy scenario. *)
Definition redis : entry := mkEntry "redis://x" ParameterTypeSecureString (Some "cache url").

Definition staging : Store :=
  [("/asset-accounting/staging/REDISCLOUD_URL", redis);
   ("/asset-accounting/staging/LOG_LEVEL", mkEntry "debug" ParameterTypeString None);
   ("/asset-accounting/staging/HOSTS", mkEntry "a,b" ParameterTypeStringList (Some "hosts"))].

Definition start (st : Store) : World Store := mkWorld st [].

Definition stg : Client Cfg := NewFromConfig "aa_stg".

Definition oldName : string := "/asset-accounting/staging/REDISCLOUD_URL".
Definition newName : string := "/asset-accounting/serviceplatform/staging/REDISCLOUD_URL".

(** A parameter the store does not hold. *)
Definition missing : string := "/asset-accounting/staging/MISSING".

(** A service that answers get-by-name but whose listings come back
    empty. *)
Definition sdkNoMetadata : Sdk Store Cfg :=
  mkSdk Store Cfg loadDefaultConfig getParameter
    (λ _ _ st, (inr (DescribeParametersOutput.mk [] None), st)) putParameter.

(** Three pairs, the second of which has no source. *)
Definition threePairs : list (string * string) :=
  [(oldName, newName);
   (missing, "/asset-accounting/serviceplatform/staging/MISSING");
   ("/asset-accounting/staging/LOG_LEVEL", "/asset-accounting/serviceplatform/staging/LOG_LEVEL")].

(** The world once the first of the three pairs is through ... *)
Definition firstDone : World Store :=
  (range [(oldName, newName)] (main_body sdk (Some stg)) (start staging)).2.

(** ... and when copyParameter comes back for the second. *)
Definition secondFailed : World Store :=
  (copyParameter sdk (Some stg) missing "/asset-accounting/serviceplatform/staging/MISSING"
     (mkWorld (remote firstDone)
        (trace firstDone
         ++ [announced missing "/asset-accounting/serviceplatform/staging/MISSING"])%list)).2.
End Fake.

(** ** The ways through copyParameter *)

(** How a call of copyParameter can end, with the events it has added by
    then: the value fetch failed, the description fetch failed (or matched
    nothing), the fetched parameter had a nil field, the write was
    rejected, or the copy is done. *)
Inductive copy_path (sourceName destName : string)
    : outcome (option error) → list event → Prop :=
  | path_fetch_failed (err : error) :
      copy_path sourceName destName
        (Returned (Some (Errorf "failed to get source parameter details: " err)))
        (fetched sourceName)
  | path_describe_failed (err : error) :
      copy_path sourceName destName
        (Returned (Some (Errorf "failed to get source parameter description: " err)))
        (described sourceName)
  | path_nil_field :
      copy_path sourceName destName (Panicked nilDereference) (described sourceName)
  | path_write_failed (sp : SsmParameter.t) (description : string) (err : error) :
      copy_path sourceName destName
        (Returned (Some (Errorf "failed to put destination parameter: " err)))
        (written sourceName destName sp description)
  | path_copied (sp : SsmParameter.t) (description : string) :
      copy_path sourceName destName (Returned None)
        (written sourceName destName sp description ++ [succeeded sourceName destName])%list.


(** The reads of a run are targeted: a get names its parameter and asks
    for decryption, a describe is filtered on one exact name and carries no
    token. *)
Definition targeted (e : event) : Prop :=
  match e with
  | GetParameterCall input =>
      ∃ name, input = GetParameterInput.mk (Some name) (Some true)
  | DescribeParametersCall input =>
      ∃ name, input = DescribeParametersInput.mk
                        [ParameterStringFilter.mk (Some "Name") [name]] None
  | _ => True
  end.

(** The store operations a copy of one pair may add: the get, then the
    describe, then one put at the new name. *)
Definition copy_ops (sourceName destName : string) (ops : list event) : Prop :=
  ops = [GetParameterCall (getInput sourceName)]
  ∨ ops = [GetParameterCall (getInput sourceName);
           DescribeParametersCall (describeInput sourceName)]
  ∨ ∃ input, PutParameterInput.Name input = Some destName
             ∧ ops = [GetParameterCall (getInput sourceName);
                      DescribeParametersCall (describeInput sourceName);
                      PutParameterCall input].




(** Services for the edge cases: one whose get-by-name succeeds with a nil
    parameter, one whose get-by-name yields a parameter without value. *)
Module Edge.
Definition sdkNilParameter : Sdk Fake.Store Fake.Cfg :=
  mkSdk Fake.Store Fake.Cfg Fake.loadDefaultConfig
    (λ _ _ st, (inr (GetParameterOutput.mk None), st))
    Fake.describeParameters Fake.putParameter.

Definition sdkNilValue : Sdk Fake.Store Fake.Cfg :=
  mkSdk Fake.Store Fake.Cfg Fake.loadDefaultConfig
    (λ _ input st,
       (inr (GetParameterOutput.mk
               (Some (SsmParameter.mk (GetParameterInput.Name input)
                        ParameterTypeString None))), st))
    Fake.describeParameters Fake.putParameter.

(** ... and one for which no configuration can be loaded. *)
Definition sdkNoConfig : Sdk Fake.Store Fake.Cfg :=
  mkSdk Fake.Store Fake.Cfg (λ profile, inl (errorString ("no profile " +:+ profile)))
    Fake.getParameter Fake.describeParameters Fake.putParameter.


End Edge.

(** * Properties *)

Open Scope list_scope.

(** ** The name mapper *)

Lemma append_inj_r (p a b : string) : p +:+ a = p +:+ b → a = b.
Proof.
  induction p as [|ch p IH]; simpl; [done|].
  intros H. injection H as H. auto.
Qed.

Lemma generateOldVariableName_inj (environment v1 v2 : string) :
  generateOldVariableName environment v1 = generateOldVariableName environment v2 → v1 = v2.
Proof.
  unfold generateOldVariableName. intros H.
  do 3 apply append_inj_r in H. exact H.
Qed.

(** The loop of the mapper over any list of identifiers: an old name is
    bound exactly when it comes from an identifier of the list, and then to
    the new name of that identifier. *)
Lemma insertNames_lookup (environment : string) (params : list string)
    (m : gmap string string) (old new : string) :
  foldl (insertNames environment) m params !! old = Some new ↔
    (∃ v, v ∈ params ∧ old = generateOldVariableName environment v
          ∧ new = generateNewVariableName environment v)
    ∨ ((∀ v, v ∈ params → old ≠ generateOldVariableName environment v) ∧ m !! old = Some new).
Proof.
  revert m. induction params as [|p params IH]; intros m; simpl.
  - split.
    + intros H. right. split; [|done]. intros v Hv. by apply elem_of_nil in Hv.
    + intros [(v & Hv & _)|[_ H]]; [by apply elem_of_nil in Hv|done].
  - rewrite IH. unfold insertNames. split.
    + intros [(v & Hv & Ho & Hn)|[Hnot H]].
      * left. exists v. split; [by apply elem_of_cons; right|done].
      * destruct (decide (generateOldVariableName environment p = old)) as [<-|Hne].
        -- rewrite lookup_insert_eq in H. injection H as <-.
           left. exists p. split; [by apply elem_of_cons; left|done].
        -- rewrite lookup_insert_ne in H by done.
           right. split; [|done]. intros v Hv. apply elem_of_cons in Hv as [->|Hv]; [congruence|auto].
    + intros [(v & Hv & Ho & Hn)|[Hnot H]].
      * destruct (decide (v ∈ params)) as [Hin|Hnin]; [left; by exists v|].
        apply elem_of_cons in Hv as [->|Hv]; [|done].
        right. split.
        -- intros v' Hv' Heq. subst old.
           apply generateOldVariableName_inj in Heq. congruence.
        -- subst. by rewrite lookup_insert_eq.
      * right. split.
        -- intros v Hv. apply Hnot. by apply elem_of_cons; right.
        -- rewrite lookup_insert_ne; [done|].
           intros Heq. apply (Hnot p); [by apply elem_of_cons; left|done].
Qed.

(** Without repeated identifiers the loop adds one entry per identifier. *)
Lemma insertNames_size (environment : string) (params : list string)
    (m : gmap string string) :
  NoDup params →
  (∀ v, v ∈ params → m !! generateOldVariableName environment v = None) →
  size (foldl (insertNames environment) m params) = (size m + length params)%nat.
Proof.
  revert m. induction params as [|p params IH]; intros m Hnd Hfresh; simpl.
  - lia.
  - apply NoDup_cons in Hnd as [Hp Hnd].
    rewrite IH; [|done|].
    + unfold insertNames. rewrite map_size_insert_None; [lia|].
      apply Hfresh. by apply elem_of_cons; left.
    + intros v Hv. unfold insertNames. rewrite lookup_insert_ne.
      * apply Hfresh. by apply elem_of_cons; right.
      * intros Heq. apply generateOldVariableName_inj in Heq. congruence.
Qed.

Lemma serverlessParams_NoDup : NoDup serverlessParams.
Proof. unfold serverlessParams. apply NoDup_singleton. Qed.

Lemma generateVariableNameMap_singleton (environment : string) :
  generateVariableNameMap environment =
    {[ generateOldVariableName environment "REDISCLOUD_URL" :=
         generateNewVariableName environment "REDISCLOUD_URL" ]}.
Proof.
  unfold generateVariableNameMap, serverlessParams, insertNames. simpl.
  by rewrite insert_empty.
Qed.

Lemma range_order_generateVariableNameMap (environment : string)
    (order : list (string * string)) :
  range_order (generateVariableNameMap environment) order →
  order = [(generateOldVariableName environment "REDISCLOUD_URL",
            generateNewVariableName environment "REDISCLOUD_URL")].
Proof.
  unfold range_order. rewrite generateVariableNameMap_singleton, map_to_list_singleton.
  intros H. by apply Permutation_singleton_r.
Qed.

Lemma generateVariableNameMap_lookup (environment old new : string) :
  generateVariableNameMap environment !! old = Some new ↔
  ∃ v, v ∈ serverlessParams
       ∧ old = generateOldVariableName environment v
       ∧ new = generateNewVariableName environment v.
Proof.
  unfold generateVariableNameMap. rewrite insertNames_lookup. split.
  - intros [H|[_ H]]; [exact H|by rewrite lookup_empty in H].
  - intros H. by left.
Qed.

(** C5. For every environment E the mapper yields exactly |V| pairs, V the
    fixed list of identifiers, and the pairs are exactly
    /asset-accounting/E/v |-> /asset-accounting/serviceplatform/E/v for v in
    V: E and v are the same on both sides. *)
Theorem generateVariableNameMap_pairs (E : string) :
  size (generateVariableNameMap E) = length serverlessParams
  ∧ ∀ old new : string,
      generateVariableNameMap E !! old = Some new ↔
      ∃ v, v ∈ serverlessParams
           ∧ old = "/asset-accounting/" +:+ E +:+ "/" +:+ v
           ∧ new = "/asset-accounting/serviceplatform/" +:+ E +:+ "/" +:+ v.
Proof.
  unfold generateVariableNameMap. split.
  - rewrite insertNames_size; [by rewrite map_size_empty| apply serverlessParams_NoDup |].
    intros v _. apply lookup_empty.
  - intros old new. apply generateVariableNameMap_lookup.
Qed.

(** C6. Mapping generation is a function of the environment alone: the
    mapper reads no store and prints nothing (it is not a computation of
    [M]), and two calls with the same E yield the same set of pairs,
    whatever order each map is later enumerated in; that set is
    { (old E v, new E v) | v in V }.  Generating over an already generated
    map changes nothing. *)
Theorem generateVariableNameMap_deterministic (E : string)
    (order1 order2 : list (string * string)) :
  range_order (generateVariableNameMap E) order1 →
  range_order (generateVariableNameMap E) order2 →
  (list_to_set order1 : gset (string * string)) = list_to_set order2
  ∧ (∀ old new : string,
       (old, new) ∈ order1 ↔
       ∃ v, v ∈ serverlessParams
            ∧ old = generateOldVariableName E v ∧ new = generateNewVariableName E v)
  ∧ foldl (insertNames E) (generateVariableNameMap E) serverlessParams
    = generateVariableNameMap E.
Proof.
  unfold range_order. intros H1 H2. split; [|split].
  - apply list_to_set_perm_L. by rewrite H1, H2.
  - intros old new. rewrite H1, elem_of_map_to_list.
    apply generateVariableNameMap_lookup.
  - apply map_eq. intros old. apply option_eq. intros new.
    rewrite insertNames_lookup, !generateVariableNameMap_lookup. tauto.
Qed.

(** ** The copy orchestrator *)

Section ProgramSpec.
Context {Remote Config : Type} (sdk : Sdk Remote Config).

Local Abbreviation M := (M Remote).

Lemma puts_app (tr1 tr2 : list event) : puts (tr1 ++ tr2) = puts tr1 ++ puts tr2.
Proof. unfold puts. apply omap_app. Qed.

Lemma puts_fetched (sourceName : string) : puts (fetched sourceName) = [].
Proof. reflexivity. Qed.

Lemma puts_described (sourceName : string) : puts (described sourceName) = [].
Proof. reflexivity. Qed.

Lemma puts_written (sourceName destName : string) (sp : SsmParameter.t) (description : string) :
  puts (written sourceName destName sp description) = [putInput destName sp description].
Proof. reflexivity. Qed.

(** What a finished path of copyParameter adds to the put requests. *)
Ltac count_puts :=
  cbn [fst snd remote trace];
  rewrite ?puts_app, ?puts_written, ?puts_described, ?puts_fetched, ?app_nil_r;
  cbn [puts omap app].

Lemma bind_run {A B} (m : M A) (k : A → M B) (w : World Remote) :
  (x ← m; k x) w =
    match m w with
    | (Returned a, w') => k a w'
    | (Panicked msg, w') => (Panicked msg, w')
    | (Exited code, w') => (Exited code, w')
    | (OutOfFuel, w') => (OutOfFuel, w')
    end.
Proof. reflexivity. Qed.

(** Unfold the monad under a run. *)
Ltac run :=
  cbv beta iota zeta delta
    [mbind M_bind bind mret M_ret ret Printf emit request deref panic Fatalf
     aws_String aws_Bool];
  cbn [remote trace options fst snd].

Lemma getParameterDetails_run (c : Client Config) (name : string) (w : World Remote) :
  getParameterDetails sdk (Some c) name w =
    let '(r, st) := GetParameter sdk (options c) (getInput name) (remote w) in
    (Returned match r with
              | inl err => (None, Some err)
              | inr result => (GetParameterOutput.Parameter_ result, None)
              end,
     mkWorld st (trace w ++ [Stdout ("Getting parameter details for: " +:+ name +:+ LF);
                             GetParameterCall (getInput name)])).
Proof.
  unfold getParameterDetails, client_GetParameter, getInput. run.
  destruct (GetParameter _ _ _ _) as [[err|result] st]; by rewrite <- app_assoc.
Qed.

Lemma getParameterDescription_run (c : Client Config) (name : string) (w : World Remote) :
  getParameterDescription sdk (Some c) name w =
    let '(r, st) := DescribeParameters sdk (options c) (describeInput name) (remote w) in
    (Returned match r with
              | inl err => ("", Some err)
              | inr output =>
                  match DescribeParametersOutput.Parameters output with
                  | [] => ("", Some (errorString "parameter not found"))
                  | first :: _ => (aws_ToString (ParameterMetadata.Description first), None)
                  end
              end,
     mkWorld st (trace w ++ [DescribeParametersCall (describeInput name)])).
Proof.
  unfold getParameterDescription, client_DescribeParameters, describeInput. run.
  destruct (DescribeParameters _ _ _ _) as [[err|output] st]; [done|].
  by destruct (DescribeParametersOutput.Parameters output).
Qed.

Lemma putParameter_run (c : Client Config) (name description : string)
    (sp : SsmParameter.t) (value : string) (w : World Remote) :
  SsmParameter.Value sp = Some value →
  putParameter sdk (Some c) name description (Some sp) w =
    let '(r, st) := PutParameter sdk (options c) (putInput name sp description) (remote w) in
    (Returned r, mkWorld st (trace w ++ [PutParameterCall (putInput name sp description)])).
Proof.
  intros Hv. unfold putParameter, client_PutParameter, putInput. run.
  rewrite Hv. reflexivity.
Qed.

(** Every path through copyParameter, by what the service answers. *)
Lemma copyParameter_run (c : Client Config) (sourceName destName : string)
    (w : World Remote) :
  copyParameter sdk (Some c) sourceName destName w =
    match GetParameter sdk (options c) (getInput sourceName) (remote w) with
    | (inl err, st1) =>
        (Returned (Some (Errorf "failed to get source parameter details: " err)),
         mkWorld st1 (trace w ++ fetched sourceName))
    | (inr out, st1) =>
        match DescribeParameters sdk (options c) (describeInput sourceName) st1 with
        | (inl err, st2) =>
            (Returned (Some (Errorf "failed to get source parameter description: " err)),
             mkWorld st2 (trace w ++ described sourceName))
        | (inr dout, st2) =>
            match DescribeParametersOutput.Parameters dout with
            | [] =>
                (Returned (Some (Errorf "failed to get source parameter description: "
                                   (errorString "parameter not found"))),
                 mkWorld st2 (trace w ++ described sourceName))
            | first :: _ =>
                let description := aws_ToString (ParameterMetadata.Description first) in
                match GetParameterOutput.Parameter_ out with
                | Some (SsmParameter.mk (Some name) ty (Some value) as sp) =>
                    match PutParameter sdk (options c)
                            (putInput destName sp description) st2 with
                    | (Some err, st3) =>
                        (Returned (Some (Errorf "failed to put destination parameter: " err)),
                         mkWorld st3
                           (trace w ++ written sourceName destName sp description))
                    | (None, st3) =>
                        (Returned None,
                         mkWorld st3
                           (trace w ++ written sourceName destName sp description
                            ++ [succeeded sourceName destName]))
                    end
                | _ => (Panicked nilDereference, mkWorld st2 (trace w ++ described sourceName))
                end
            end
        end
    end.
Proof.
  unfold copyParameter. run. rewrite getParameterDetails_run. cbn [remote trace].
  destruct (GetParameter _ _ _ _) as [[err|out] st1].
  { unfold fetched. by rewrite <- app_assoc. }
  rewrite getParameterDescription_run. cbn [remote trace].
  destruct (DescribeParameters _ _ _ _) as [[err|dout] st2].
  { unfold described, fetched. by rewrite <- !app_assoc. }
  destruct (DescribeParametersOutput.Parameters dout) as [|first rest].
  { unfold described, fetched. by rewrite <- !app_assoc. }
  destruct (GetParameterOutput.Parameter_ out) as [[[name|] ty [value|]]|];
    cbn [SsmParameter.Name SsmParameter.Value SsmParameter.Type_ remote trace];
    try (unfold described, fetched; by rewrite <- !app_assoc).
  rewrite (putParameter_run c destName _ (SsmParameter.mk (Some name) ty (Some value)) value _ eq_refl). cbn [remote trace].
  destruct (PutParameter _ _ _ _) as [[err|] st3];
    unfold written, described, fetched, succeeded;
    cbn [aws_ToString default SsmParameter.Name SsmParameter.Value SsmParameter.Type_
         remote trace];
    rewrite <- ?app_assoc; reflexivity.
Qed.

(** C1. If the value fetch, the description fetch and the write all
    succeed, copyParameter returns nil and the one parameter it has written
    is at newName, with the source's value, the source's type (whatever
    that type is) and the description the metadata lookup returned. *)
Theorem copyParameter_copies (c : Client Config) (sourceName destName : string)
    (w : World Remote) (out : GetParameterOutput.t) (sp : SsmParameter.t)
    (name value : string) (dout : DescribeParametersOutput.t)
    (first : ParameterMetadata.t) (rest : list ParameterMetadata.t) (st1 st2 st3 : Remote) :
  GetParameter sdk (options c) (getInput sourceName) (remote w) = (inr out, st1) →
  GetParameterOutput.Parameter_ out = Some sp →
  SsmParameter.Name sp = Some name →
  SsmParameter.Value sp = Some value →
  DescribeParameters sdk (options c) (describeInput sourceName) st1 = (inr dout, st2) →
  DescribeParametersOutput.Parameters dout = first :: rest →
  PutParameter sdk (options c)
    (PutParameterInput.mk (Some destName) (Some value) (SsmParameter.Type_ sp)
       (Some (aws_ToString (ParameterMetadata.Description first))) None) st2 = (None, st3) →
  let w' := (copyParameter sdk (Some c) sourceName destName w).2 in
  (copyParameter sdk (Some c) sourceName destName w).1 = Returned None
  ∧ remote w' = st3
  ∧ puts (trace w') =
      puts (trace w)
      ++ [PutParameterInput.mk (Some destName) (Some value) (SsmParameter.Type_ sp)
            (Some (aws_ToString (ParameterMetadata.Description first))) None].
Proof.
  intros Hget Hsp Hname Hvalue Hdesc Hfirst Hput w'. subst w'.
  rewrite copyParameter_run, Hget, Hdesc, Hfirst, Hsp.
  destruct sp as [n ty v]. cbn in Hname, Hvalue. subst n v.
  unfold putInput. cbn [SsmParameter.Name SsmParameter.Value SsmParameter.Type_] in *.
  rewrite Hput. cbn [fst snd remote trace].
  split; [done|]. split; [done|].
  count_puts. reflexivity.
Qed.

(** C2. If the store's get-by-name fails for the old name (not found or
    any other error), copyParameter returns an error for the pair, and
    nothing but the two progress lines and the get request has happened:
    no write is performed. *)
Theorem copyParameter_source_error (c : Client Config) (sourceName destName : string)
    (w : World Remote) (err : error) (st : Remote) :
  GetParameter sdk (options c) (getInput sourceName) (remote w) = (inl err, st) →
  copyParameter sdk (Some c) sourceName destName w =
    (Returned (Some (Errorf "failed to get source parameter details: " err)),
     mkWorld st (trace w ++ fetched sourceName))
  ∧ puts (trace (copyParameter sdk (Some c) sourceName destName w).2) = puts (trace w).
Proof.
  intros Hget.
  assert (copyParameter sdk (Some c) sourceName destName w =
    (Returned (Some (Errorf "failed to get source parameter details: " err)),
     mkWorld st (trace w ++ fetched sourceName))) as Hrun.
  { unfold copyParameter. run.
    rewrite getParameterDetails_run. cbn [remote trace]. rewrite Hget.
    unfold fetched. by rewrite <- app_assoc. }
  split; [exact Hrun|].
  rewrite Hrun. by count_puts.
Qed.

(** C3. If the filtered listing for the old name has zero matches, the
    description lookup fails: copyParameter returns an error and no write
    is performed.  And whenever copyParameter does send a write, the value
    fetch and the description fetch have both succeeded, and their two
    requests precede it in the trace. *)
Theorem copyParameter_description_missing (c : Client Config)
    (sourceName destName : string) (w : World Remote) :
  (∀ out st1 dout st2,
     GetParameter sdk (options c) (getInput sourceName) (remote w) = (inr out, st1) →
     DescribeParameters sdk (options c) (describeInput sourceName) st1 = (inr dout, st2) →
     DescribeParametersOutput.Parameters dout = [] →
     getParameterDescription sdk (Some c) sourceName (mkWorld st1 (trace w ++ fetched sourceName))
       = (Returned ("", Some (errorString "parameter not found")),
          mkWorld st2 (trace w ++ described sourceName))
     ∧ copyParameter sdk (Some c) sourceName destName w =
         (Returned (Some (Errorf "failed to get source parameter description: "
                            (errorString "parameter not found"))),
          mkWorld st2 (trace w ++ described sourceName))
     ∧ puts (trace (copyParameter sdk (Some c) sourceName destName w).2) = puts (trace w))
  ∧ (puts (trace (copyParameter sdk (Some c) sourceName destName w).2) ≠ puts (trace w) →
     ∃ out st1 dout st2 first rest line input tail,
       GetParameter sdk (options c) (getInput sourceName) (remote w) = (inr out, st1)
       ∧ DescribeParameters sdk (options c) (describeInput sourceName) st1 = (inr dout, st2)
       ∧ DescribeParametersOutput.Parameters dout = first :: rest
       ∧ trace (copyParameter sdk (Some c) sourceName destName w).2 =
           trace w ++ described sourceName ++ Stdout line :: PutParameterCall input :: tail).
Proof.
  split.
  - intros out st1 dout st2 Hget Hdesc Hnone. split; [|split].
    + rewrite getParameterDescription_run. cbn [remote trace]. rewrite Hdesc, Hnone.
      unfold described. by rewrite <- app_assoc.
    + by rewrite copyParameter_run, Hget, Hdesc, Hnone.
    + rewrite copyParameter_run, Hget, Hdesc, Hnone. by count_puts.
  - rewrite copyParameter_run.
    destruct (GetParameter _ _ _ _) as [[err|out] st1].
    { by count_puts. }
    destruct (DescribeParameters _ _ _ _) as [[err|dout] st2] eqn:Hdesc.
    { by count_puts. }
    destruct (DescribeParametersOutput.Parameters dout) as [|first rest] eqn:Hfirst.
    { by count_puts. }
    destruct (GetParameterOutput.Parameter_ out) as [[[name|] ty [value|]]|];
      try by count_puts.
    intros _. cbv zeta.
    destruct (PutParameter _ _ _ _) as [[err|] st3]; cbn [snd trace]; unfold written.
    + eexists out, st1, dout, st2, first, rest, _, _, [].
      repeat split; try done; cbn [fst snd]; rewrite <- ?app_assoc; reflexivity.
    + eexists out, st1, dout, st2, first, rest, _, _, [_].
      repeat split; try done; cbn [fst snd]; rewrite <- ?app_assoc; reflexivity.
Qed.

(** ** The loop of main *)

Lemma main_body_run (client : option (Client Config)) (oldEnvName newEnName : string)
    (w : World Remote) :
  main_body sdk client oldEnvName newEnName w =
    match copyParameter sdk client oldEnvName newEnName
            (mkWorld (remote w) (trace w ++ [announced oldEnvName newEnName])) with
    | (Returned (Some err), w') =>
        (Exited 1,
         mkWorld (remote w') (trace w' ++ [Fatal ("failed to copy parameter, " +:+ Error err)]))
    | (Returned None, w') => (Returned (), w')
    | (Panicked msg, w') => (Panicked msg, w')
    | (Exited code, w') => (Exited code, w')
    | (OutOfFuel, w') => (OutOfFuel, w')
    end.
Proof.
  unfold main_body, announced. run.
  destruct (copyParameter _ _ _ _ _) as [[[err|]| | |] w']; reflexivity.
Qed.

Lemma range_app (pre post : list (string * string))
    (body : string → string → M unit) (w : World Remote) :
  range (pre ++ post) body w =
    match range pre body w with
    | (Returned (), w') => range post body w'
    | stopped => stopped
    end.
Proof.
  revert w. induction pre as [|[k v] pre IH]; intros w; simpl; [done|].
  rewrite !bind_run. destruct (body k v w) as [[[]| | |] w']; auto.
Qed.

(** C4. Fail-fast, for every mapping and every pair in it: when the pairs
    before (old, new) went through and copyParameter returns an error for
    (old, new), the run ends there with exit status 1 and the fatal line,
    whatever pairs are left: the store is as that copy left it and no store
    operation follows those of that copy. *)
Theorem range_fail_fast (client : option (Client Config))
    (pre post : list (string * string)) (old new : string)
    (w w1 w2 : World Remote) (err : error) :
  range pre (main_body sdk client) w = (Returned (), w1) →
  copyParameter sdk client old new (mkWorld (remote w1) (trace w1 ++ [announced old new]))
    = (Returned (Some err), w2) →
  let final :=
    mkWorld (remote w2) (trace w2 ++ [Fatal ("failed to copy parameter, " +:+ Error err)]) in
  range (pre ++ (old, new) :: post) (main_body sdk client) w = (Exited 1, final)
  ∧ remote final = remote w2
  ∧ store_ops (trace final) = store_ops (trace w2).
Proof.
  intros Hpre Hcopy final. split; [|split].
  - rewrite range_app, Hpre. simpl. rewrite bind_run, main_body_run, Hcopy. reflexivity.
  - reflexivity.
  - subst final. unfold store_ops. cbn [trace].
    rewrite List.filter_app. cbn. apply app_nil_r.
Qed.

(** The third way a pair can fail: the store rejects the write. *)
Lemma copyParameter_write_error (c : Client Config) (sourceName destName : string)
    (w : World Remote) (out : GetParameterOutput.t) (sp : SsmParameter.t)
    (name value : string) (dout : DescribeParametersOutput.t)
    (first : ParameterMetadata.t) (rest : list ParameterMetadata.t)
    (err : error) (st1 st2 st3 : Remote) :
  GetParameter sdk (options c) (getInput sourceName) (remote w) = (inr out, st1) →
  GetParameterOutput.Parameter_ out = Some sp →
  SsmParameter.Name sp = Some name →
  SsmParameter.Value sp = Some value →
  DescribeParameters sdk (options c) (describeInput sourceName) st1 = (inr dout, st2) →
  DescribeParametersOutput.Parameters dout = first :: rest →
  PutParameter sdk (options c)
    (putInput destName sp (aws_ToString (ParameterMetadata.Description first))) st2
    = (Some err, st3) →
  (copyParameter sdk (Some c) sourceName destName w).1
  = Returned (Some (Errorf "failed to put destination parameter: " err)).
Proof.
  intros Hget Hsp Hname Hvalue Hdesc Hfirst Hput.
  rewrite copyParameter_run, Hget, Hdesc, Hfirst, Hsp.
  destruct sp as [n ty v]. cbn in Hname, Hvalue. subst n v.
  cbv zeta. by rewrite Hput.
Qed.

(** Whatever stops the body (a fatal exit, a panic) stops the loop: the
    pairs that are left do not matter. *)
Lemma range_stops (client : option (Client Config)) (pre post : list (string * string))
    (old new : string) (w w1 : World Remote) :
  range pre (main_body sdk client) w = (Returned (), w1) →
  (main_body sdk client old new w1).1 ≠ Returned () →
  range (pre ++ (old, new) :: post) (main_body sdk client) w
  = main_body sdk client old new w1.
Proof.
  intros Hpre Hstop. rewrite range_app, Hpre. simpl. rewrite bind_run.
  destruct (main_body sdk client old new w1) as [[[]| | |] w2]; cbn in *; congruence.
Qed.

(** ** main *)

(** Every environment has a run, and all its runs from a given world end
    alike. *)
Lemma main_runs_exists (E : string) (w : World Remote) :
  ∃ res, main_runs sdk E w res.
Proof.
  exists (main_for sdk E (map_to_list (generateVariableNameMap E)) w).
  exists (map_to_list (generateVariableNameMap E)). split; [|done].
  unfold range_order. reflexivity.
Qed.

Lemma main_runs_deterministic (E : string) (w : World Remote)
    (res1 res2 : outcome unit * World Remote) :
  main_runs sdk E w res1 → main_runs sdk E w res2 → res1 = res2.
Proof.
  intros (o1 & H1%range_order_generateVariableNameMap & <-)
         (o2 & H2%range_order_generateVariableNameMap & <-).
  by subst.
Qed.

Lemma profile_of_eqb (environemnt : string) :
  (if String.eqb environemnt "production" then "aa_prod" else "aa_stg") = profile_of environemnt.
Proof.
  unfold profile_of. destruct (String.eqb_spec environemnt "production") as [->|Hne].
  - reflexivity.
  - by rewrite decide_False.
Qed.

(** C7. main connects with the production profile when the environment
    label is "production" and with the staging profile for every other
    label: the one configuration it loads is that of [profile_of], and
    every request of the run goes through the client made from it. *)
Theorem main_profile (E : string) (order : list (string * string)) (w : World Remote) :
  (E = "production" → profile_of E = "aa_prod")
  ∧ (E ≠ "production" → profile_of E = "aa_stg")
  ∧ main_for sdk E order w =
      let connecting := mkWorld (remote w) (trace w ++ [LoadDefaultConfigCall (profile_of E)]) in
      match LoadDefaultConfig sdk (profile_of E) with
      | inl err =>
          (Exited 1,
           mkWorld (remote w)
             (trace connecting
              ++ [Fatal ("failed to connect to AWS, "
                         +:+ Error (Errorf "unable to load SDK config, " err))]))
      | inr cfg => range order (main_body sdk (Some (NewFromConfig cfg))) connecting
      end.
Proof.
  split; [|split].
  - intros ->. reflexivity.
  - intros Hne. unfold profile_of. by rewrite decide_False.
  - unfold main_for, connectToAWSByProfile. rewrite profile_of_eqb. run.
    destruct (LoadDefaultConfig sdk (profile_of E)) as [err|cfg]; reflexivity.
Qed.

(** ** getAllParameters *)

(** C9. getAllParameters sends one listing request, without a token, and
    returns the parameters of that first page (or its error): the token of
    the page is never followed, so whatever the store lists on later pages
    is left out. *)
Theorem getAllParameters_first_page (fuel : nat) (c : Client Config) (w : World Remote) :
  getAllParameters sdk (S fuel) (Some c) w =
    let '(r, st) := DescribeParameters sdk (options c) DescribeParametersInput.zero (remote w) in
    (Returned match r with
              | inl err => ([], Some err)
              | inr page => (DescribeParametersOutput.Parameters page, None)
              end,
     mkWorld st (trace w ++ [DescribeParametersCall DescribeParametersInput.zero])).
Proof.
  unfold getAllParameters, for_loop, NextPage, client_DescribeParameters,
    NewDescribeParametersPaginator, HasMorePages, DescribeParametersInput.zero.
  cbn [DescribeParametersPaginator.firstPage DescribeParametersPaginator.nextToken
       DescribeParametersPaginator.params DescribeParametersInput.ParameterFilters
       DescribeParametersInput.NextToken orb negb].
  run.
  destruct (DescribeParameters _ _ _ _) as [[err|page] st]; reflexivity.
Qed.

(** ** The overwrite flag *)

Lemma overwrite_unset_app (tr1 tr2 : list event) :
  overwrite_unset tr1 → overwrite_unset tr2 → overwrite_unset (tr1 ++ tr2).
Proof. unfold overwrite_unset. rewrite puts_app. apply Forall_app_2. Qed.

Lemma putParameter_overwrite_unset (client : option (Client Config))
    (name description : string) (dest : option SsmParameter.t) (w : World Remote) :
  overwrite_unset (trace w) →
  overwrite_unset (trace (putParameter sdk client name description dest w).2).
Proof.
  intros Hw. unfold putParameter, client_PutParameter. run.
  destruct dest as [[n ty [v|]]|]; cbn [SsmParameter.Value snd trace]; try done.
  destruct client as [c|]; cbn [snd trace]; [|done].
  destruct (PutParameter _ _ _ _) as [r st]. cbn [snd trace].
  apply overwrite_unset_app; [done|].
  unfold overwrite_unset. cbn. by apply Forall_singleton.
Qed.

Lemma copyParameter_overwrite_unset (c : Client Config) (sourceName destName : string)
    (w : World Remote) :
  overwrite_unset (trace w) →
  overwrite_unset (trace (copyParameter sdk (Some c) sourceName destName w).2).
Proof.
  intros Hw. unfold overwrite_unset in *. rewrite copyParameter_run.
  destruct (GetParameter _ _ _ _) as [[err|out] st1]; [by count_puts|].
  destruct (DescribeParameters _ _ _ _) as [[err|dout] st2]; [by count_puts|].
  destruct (DescribeParametersOutput.Parameters dout) as [|first rest]; [by count_puts|].
  destruct (GetParameterOutput.Parameter_ out) as [[[name|] ty [value|]]|];
    try by count_puts.
  cbv zeta. destruct (PutParameter _ _ _ _) as [[err|] st3]; count_puts;
    rewrite ?app_nil_r; (apply Forall_app_2; [done|by apply Forall_singleton]).
Qed.

Lemma range_overwrite_unset (c : Client Config) (order : list (string * string))
    (w : World Remote) :
  overwrite_unset (trace w) →
  overwrite_unset (trace (range order (main_body sdk (Some c)) w).2).
Proof.
  revert w. induction order as [|[old new] order IH]; intros w Hw; simpl; [done|].
  rewrite bind_run, main_body_run.
  pose proof (copyParameter_overwrite_unset c old new
                (mkWorld (remote w) (trace w ++ [announced old new]))) as Hcopy.
  destruct (copyParameter _ _ _ _ _) as [[[err|]| | |] w']; cbn [snd trace] in *.
  - apply overwrite_unset_app; [|by apply Forall_nil].
    apply Hcopy. apply overwrite_unset_app; [done|by apply Forall_nil].
  - apply IH, Hcopy. apply overwrite_unset_app; [done|by apply Forall_nil].
  - apply Hcopy. apply overwrite_unset_app; [done|by apply Forall_nil].
  - apply Hcopy. apply overwrite_unset_app; [done|by apply Forall_nil].
  - apply Hcopy. apply overwrite_unset_app; [done|by apply Forall_nil].
Qed.

(** C10. No write sets the overwrite flag: putParameter leaves it nil in
    the request it builds, for every caller, and so does every put request
    of a run of main, for every environment and every order of the pairs.
    Whether an existing destination is replaced is thus left to the
    store's default. *)
Theorem writes_leave_overwrite_unset (w : World Remote) :
  overwrite_unset (trace w) →
  (∀ client name description dest,
     overwrite_unset (trace (putParameter sdk client name description dest w).2))
  ∧ (∀ E order, overwrite_unset (trace (main_for sdk E order w).2)).
Proof.
  intros Hw. split.
  - intros client name description dest. by apply putParameter_overwrite_unset.
  - intros E order. unfold main_for, connectToAWSByProfile. run.
    destruct (LoadDefaultConfig sdk _) as [err|cfg]; cbn [snd trace].
    + repeat (apply overwrite_unset_app; [|by apply Forall_nil]). done.
    + apply range_overwrite_unset. apply overwrite_unset_app; [done|by apply Forall_nil].
Qed.
End ProgramSpec.

(** * The properties at work on the in-memory store *)

Lemma copyParameter_copies_witness :
  (copyParameter Fake.sdk (Some Fake.stg) Fake.oldName Fake.newName
     (Fake.start Fake.staging)).1 = Returned None
  ∧ remote (copyParameter Fake.sdk (Some Fake.stg) Fake.oldName Fake.newName
              (Fake.start Fake.staging)).2
    = Fake.staging ++ [(Fake.newName, Fake.redis)]
  ∧ puts (trace (copyParameter Fake.sdk (Some Fake.stg) Fake.oldName Fake.newName
                   (Fake.start Fake.staging)).2)
    = [] ++ [PutParameterInput.mk (Some Fake.newName) (Some "redis://x")
               ParameterTypeSecureString (Some "cache url") None].
Proof.
  apply (copyParameter_copies Fake.sdk Fake.stg Fake.oldName Fake.newName
           (Fake.start Fake.staging)
           (GetParameterOutput.mk
              (Some (SsmParameter.mk (Some Fake.oldName) ParameterTypeSecureString
                       (Some "redis://x"))))
           (SsmParameter.mk (Some Fake.oldName) ParameterTypeSecureString (Some "redis://x"))
           Fake.oldName "redis://x"
           (DescribeParametersOutput.mk [Fake.metadata (Fake.oldName, Fake.redis)] None)
           (Fake.metadata (Fake.oldName, Fake.redis)) []
           Fake.staging Fake.staging (Fake.staging ++ [(Fake.newName, Fake.redis)]));
    reflexivity.
Defined.

Lemma copyParameter_source_error_witness :
  copyParameter Fake.sdk (Some Fake.stg) Fake.missing Fake.newName (Fake.start Fake.staging) =
    (Returned (Some (Errorf "failed to get source parameter details: "
                       (APIError "ParameterNotFound" Fake.missing))),
     mkWorld Fake.staging (trace (Fake.start Fake.staging) ++ fetched Fake.missing))
  ∧ puts (trace (copyParameter Fake.sdk (Some Fake.stg) Fake.missing Fake.newName
                   (Fake.start Fake.staging)).2)
    = puts (trace (Fake.start Fake.staging)).
Proof.
  apply (copyParameter_source_error Fake.sdk Fake.stg Fake.missing Fake.newName
           (Fake.start Fake.staging) (APIError "ParameterNotFound" Fake.missing) Fake.staging).
  reflexivity.
Defined.

Lemma copyParameter_description_missing_witness :
  (copyParameter Fake.sdkNoMetadata (Some Fake.stg) Fake.oldName Fake.newName
     (Fake.start Fake.staging) =
     (Returned (Some (Errorf "failed to get source parameter description: "
                        (errorString "parameter not found"))),
      mkWorld Fake.staging (trace (Fake.start Fake.staging) ++ described Fake.oldName)))
  ∧ ∃ out st1 dout st2 first rest line input tail,
      GetParameter Fake.sdk (options Fake.stg) (getInput Fake.oldName)
        (remote (Fake.start Fake.staging)) = (inr out, st1)
      ∧ DescribeParameters Fake.sdk (options Fake.stg) (describeInput Fake.oldName) st1
        = (inr dout, st2)
      ∧ DescribeParametersOutput.Parameters dout = first :: rest
      ∧ trace (copyParameter Fake.sdk (Some Fake.stg) Fake.oldName Fake.newName
                 (Fake.start Fake.staging)).2
        = trace (Fake.start Fake.staging) ++ described Fake.oldName
          ++ Stdout line :: PutParameterCall input :: tail.
Proof.
  split.
  - apply (proj1 (copyParameter_description_missing Fake.sdkNoMetadata Fake.stg
                    Fake.oldName Fake.newName (Fake.start Fake.staging))
             (GetParameterOutput.mk
                (Some (SsmParameter.mk (Some Fake.oldName) ParameterTypeSecureString
                         (Some "redis://x"))))
             Fake.staging (DescribeParametersOutput.mk [] None) Fake.staging);
      reflexivity.
  - apply (proj2 (copyParameter_description_missing Fake.sdk Fake.stg
                    Fake.oldName Fake.newName (Fake.start Fake.staging))).
    vm_compute. discriminate.
Defined.

Lemma range_fail_fast_witness :
  range ([(Fake.oldName, Fake.newName)]
         ++ (Fake.missing, "/asset-accounting/serviceplatform/staging/MISSING")
            :: [("/asset-accounting/staging/LOG_LEVEL",
                 "/asset-accounting/serviceplatform/staging/LOG_LEVEL")])
    (main_body Fake.sdk (Some Fake.stg)) (Fake.start Fake.staging)
  = (Exited 1,
     mkWorld (remote Fake.secondFailed)
       (trace Fake.secondFailed
        ++ [Fatal ("failed to copy parameter, "
                   +:+ Error (Errorf "failed to get source parameter details: "
                                (APIError "ParameterNotFound" Fake.missing)))]))
  ∧ remote (mkWorld (remote Fake.secondFailed)
       (trace Fake.secondFailed
        ++ [Fatal ("failed to copy parameter, "
                   +:+ Error (Errorf "failed to get source parameter details: "
                                (APIError "ParameterNotFound" Fake.missing)))]))
    = remote Fake.secondFailed
  ∧ store_ops (trace (mkWorld (remote Fake.secondFailed)
       (trace Fake.secondFailed
        ++ [Fatal ("failed to copy parameter, "
                   +:+ Error (Errorf "failed to get source parameter details: "
                                (APIError "ParameterNotFound" Fake.missing)))])))
    = store_ops (trace Fake.secondFailed).
Proof.
  apply (range_fail_fast Fake.sdk (Some Fake.stg) [(Fake.oldName, Fake.newName)]
           [("/asset-accounting/staging/LOG_LEVEL",
             "/asset-accounting/serviceplatform/staging/LOG_LEVEL")]
           Fake.missing "/asset-accounting/serviceplatform/staging/MISSING"
           (Fake.start Fake.staging) Fake.firstDone Fake.secondFailed
           (Errorf "failed to get source parameter details: "
              (APIError "ParameterNotFound" Fake.missing)));
    reflexivity.
Defined.

Lemma generateVariableNameMap_deterministic_witness :
  (list_to_set [(Fake.oldName, Fake.newName)] : gset (string * string))
    = list_to_set [(Fake.oldName, Fake.newName)]
  ∧ (∀ old new : string,
       (old, new) ∈ [(Fake.oldName, Fake.newName)] ↔
       ∃ v, v ∈ serverlessParams
            ∧ old = generateOldVariableName "staging" v
            ∧ new = generateNewVariableName "staging" v)
  ∧ foldl (insertNames "staging") (generateVariableNameMap "staging") serverlessParams
    = generateVariableNameMap "staging".
Proof.
  apply (generateVariableNameMap_deterministic "staging");
    unfold range_order; rewrite generateVariableNameMap_singleton, map_to_list_singleton;
    reflexivity.
Defined.

Lemma main_profile_witness :
  profile_of "production" = "aa_prod" ∧ profile_of "beta" = "aa_stg".
Proof.
  split.
  - apply (proj1 (main_profile Fake.sdk "production" [] (Fake.start Fake.staging))).
    reflexivity.
  - apply (proj1 (proj2 (main_profile Fake.sdk "beta" [] (Fake.start Fake.staging)))).
    discriminate.
Defined.

Lemma writes_leave_overwrite_unset_witness :
  (∀ client name description dest,
     overwrite_unset
       (trace (putParameter Fake.sdk client name description dest (Fake.start Fake.staging)).2))
  ∧ (∀ E order,
       overwrite_unset (trace (main_for Fake.sdk E order (Fake.start Fake.staging)).2)).
Proof.
  apply (writes_leave_overwrite_unset Fake.sdk (Fake.start Fake.staging)).
  apply Forall_nil. exact I.
Defined.

(** The copy scenario: after the copy the store holds, under the new name,
    the value, the type and the description of the source. *)
Example copy_scenario :
  Fake.find Fake.newName
    (remote (copyParameter Fake.sdk (Some Fake.stg) Fake.oldName Fake.newName
               (Fake.start Fake.staging)).2)
  = Some (Fake.mkEntry "redis://x" ParameterTypeSecureString (Some "cache url")).
Proof. reflexivity. Qed.

(** The run of main on the staging store. *)
Example main_staging :
  ∃ w', main Fake.sdk (map_to_list (generateVariableNameMap "staging"))
          (Fake.start Fake.staging) = (Returned (), w')
        ∧ head (trace w') = Some (LoadDefaultConfigCall "aa_stg")
        ∧ Fake.find Fake.newName (remote w') = Some Fake.redis.
Proof. eexists. vm_compute. done. Qed.

(** A listing of three parameters in pages of two: getAllParameters stops
    after the first page although the page carries a token. *)
Example getAllParameters_omits_later_pages :
  length Fake.staging = 3%nat
  ∧ (DescribeParameters Fake.sdk "aa_stg" DescribeParametersInput.zero Fake.staging).1
    = inr (DescribeParametersOutput.mk
             (List.map Fake.metadata (take 2 Fake.staging))
             (Some "/asset-accounting/staging/HOSTS"))
  ∧ (getAllParameters Fake.sdk 1 (Some Fake.stg) (Fake.start Fake.staging)).1
    = Returned (List.map Fake.metadata (take 2 Fake.staging), None).
Proof. done. Qed.

(** With the flag unset the in-memory store refuses to replace a parameter:
    a second copy of the same pair fails and leaves the store as it was. *)
Example second_copy_refused :
  copyParameter Fake.sdk (Some Fake.stg) Fake.oldName Fake.newName Fake.firstDone
  = (Returned (Some (Errorf "failed to put destination parameter: "
                       (APIError "ParameterAlreadyExists" Fake.newName))),
     mkWorld (remote Fake.firstDone)
       (trace Fake.firstDone
        ++ written Fake.oldName Fake.newName
             (SsmParameter.mk (Some Fake.oldName) ParameterTypeSecureString (Some "redis://x"))
             "cache url")).
Proof. reflexivity. Qed.

(** A map of two entries may be visited in either order. *)
Example range_order_not_unique :
  let m : gmap string string := {[ "a" := "1"; "b" := "2" ]} in
  range_order m [("a", "1"); ("b", "2")] ∧ range_order m [("b", "2"); ("a", "1")].
Proof.
  unfold range_order. split; vm_compute; first [reflexivity | apply perm_swap].
Qed.

(** Each of the three parameter types is copied as it is. *)
Example copy_preserves_each_type :
  Forall
    (λ name,
       let w' := (copyParameter Fake.sdk (Some Fake.stg) name ("/new" +:+ name)
                    (Fake.start Fake.staging)).2 in
       Fake.type_ <$> Fake.find ("/new" +:+ name) (remote w')
       = Fake.type_ <$> Fake.find name Fake.staging)
    (fst <$> Fake.staging)
  ∧ Fake.type_ <$> Fake.staging.*2 ≡ₚ supportedTypes.
Proof.
  split; [repeat constructor|].
  apply (Permutation_cons_append [ParameterTypeString; ParameterTypeStringList]).
Qed.

(** * More on the name mapper *)

Lemma string_app_cons (ch : Ascii.ascii) (a b : string) :
  String ch a +:+ b = String ch (a +:+ b).
Proof. reflexivity. Qed.

Lemma string_length_app (a b : string) :
  String.length (a +:+ b) = (String.length a + String.length b)%nat.
Proof.
  induction a as [|ch a IH]; [done|].
  rewrite string_app_cons. cbn [String.length]. by rewrite IH.
Qed.

Lemma string_app_assoc (a b c : string) : (a +:+ b) +:+ c = a +:+ b +:+ c.
Proof.
  induction a as [|ch a IH]; [done|].
  rewrite !string_app_cons. by rewrite IH.
Qed.

Lemma append_inj_l (a b s : string) : a +:+ s = b +:+ s → a = b.
Proof.
  revert b. induction a as [|ch a IH]; intros [|ch' b] H.
  - done.
  - apply (f_equal String.length) in H. rewrite !string_length_app in H.
    cbn [String.length] in H. lia.
  - apply (f_equal String.length) in H. rewrite !string_length_app in H.
    cbn [String.length] in H. lia.
  - rewrite !string_app_cons in H. injection H as -> H. f_equal. by apply IH.
Qed.

(** X1. The new name of a variable is never its old name, and it is
    sixteen characters longer (the inserted "serviceplatform/"): a copy
    never writes onto the parameter it reads. *)
Theorem generateNewVariableName_fresh (environment variableName : string) :
  generateOldVariableName environment variableName
    ≠ generateNewVariableName environment variableName
  ∧ String.length (generateNewVariableName environment variableName)
    = (String.length (generateOldVariableName environment variableName) + 16)%nat.
Proof.
  assert (String.length (generateNewVariableName environment variableName)
          = (String.length (generateOldVariableName environment variableName) + 16)%nat) as Hlen.
  { unfold generateNewVariableName, generateOldVariableName.
    rewrite !string_length_app. cbn [String.length]. lia. }
  split; [|exact Hlen].
  intros Heq. rewrite Heq in Hlen. lia.
Qed.

(** X2. Within one environment distinct variables get distinct old names
    and distinct new names, and one variable gets distinct names in
    distinct environments: each generator is injective in each argument. *)
Theorem generated_names_injective (e1 e2 v1 v2 : string) :
  (generateOldVariableName e1 v1 = generateOldVariableName e1 v2 ↔ v1 = v2)
  ∧ (generateNewVariableName e1 v1 = generateNewVariableName e1 v2 ↔ v1 = v2)
  ∧ (generateOldVariableName e1 v1 = generateOldVariableName e2 v1 ↔ e1 = e2)
  ∧ (generateNewVariableName e1 v1 = generateNewVariableName e2 v1 ↔ e1 = e2).
Proof.
  unfold generateOldVariableName, generateNewVariableName.
  repeat split; try (intros ->; reflexivity); intros H.
  - by do 3 apply append_inj_r in H.
  - by do 3 apply append_inj_r in H.
  - apply append_inj_r in H. by apply append_inj_l in H.
  - apply append_inj_r in H. by apply append_inj_l in H.
Qed.

(** X3. The generators do not separate their arguments: a slash may sit
    in the environment or in the variable name, and (E/x, v) and (E, x/v)
    get the same old name and the same new name. *)
Theorem generated_names_split (environment x variableName : string) :
  generateOldVariableName (environment +:+ "/" +:+ x) variableName
    = generateOldVariableName environment (x +:+ "/" +:+ variableName)
  ∧ generateNewVariableName (environment +:+ "/" +:+ x) variableName
    = generateNewVariableName environment (x +:+ "/" +:+ variableName).
Proof.
  unfold generateOldVariableName, generateNewVariableName.
  split; f_equal; by rewrite !string_app_assoc.
Qed.

(** * More on the copy orchestrator *)

(** Events that a shape of copyParameter does not hold. *)
Ltac not_among :=
  let Hin := fresh "Hin" in
  intros Hin; revert Hin;
  unfold succeeded, written, described, fetched;
  rewrite ?elem_of_app, ?elem_of_cons, ?elem_of_nil;
  intros Hin; decompose [or] Hin; try done; discriminate.

Section ProgramPaths.
Context {Remote Config : Type} (sdk : Sdk Remote Config).

(** Every call of copyParameter takes one of the five ways. *)
Lemma copyParameter_path (c : Client Config) (sourceName destName : string)
    (w : World Remote) :
  ∃ new,
    copy_path sourceName destName (copyParameter sdk (Some c) sourceName destName w).1 new
    ∧ trace (copyParameter sdk (Some c) sourceName destName w).2 = trace w ++ new.
Proof.
  rewrite copyParameter_run.
  destruct (GetParameter _ _ _ _) as [[err|out] st1].
  { eexists. split; [apply path_fetch_failed|reflexivity]. }
  destruct (DescribeParameters _ _ _ _) as [[err|dout] st2].
  { eexists. split; [apply path_describe_failed|reflexivity]. }
  destruct (DescribeParametersOutput.Parameters dout) as [|first rest].
  { eexists. split; [apply path_describe_failed|reflexivity]. }
  destruct (GetParameterOutput.Parameter_ out) as [[[name|] ty [value|]]|];
    try (eexists; split; [apply path_nil_field|reflexivity]).
  cbv zeta. destruct (PutParameter _ _ _ _) as [[err|] st3].
  - eexists. split; [apply path_write_failed|reflexivity].
  - eexists. split; [apply path_copied|reflexivity].
Qed.

Lemma store_ops_app (tr1 tr2 : list event) :
  store_ops (tr1 ++ tr2) = store_ops tr1 ++ store_ops tr2.
Proof. unfold store_ops. apply List.filter_app. Qed.

Lemma copy_path_ops (sourceName destName : string) (res : outcome (option error))
    (new : list event) :
  copy_path sourceName destName res new → copy_ops sourceName destName (store_ops new).
Proof.
  intros [err|err| |sp d err|sp d]; unfold copy_ops.
  - by left.
  - right. by left.
  - right. by left.
  - right. right. by exists (putInput destName sp d).
  - right. right. by exists (putInput destName sp d).
Qed.

(** X4. Whatever the service answers, one call of copyParameter only adds
    events, and its store operations are fixed by the answers: the get of
    the source alone when the get fails; the get then the describe of the
    source when the describe fails or matches nothing, or when the fetched
    parameter has a nil field; otherwise the get, the describe and one put
    at the destination with the fetched value, type and description.
    Nothing is sent twice and nothing after a failed step. *)
Theorem copyParameter_store_ops (c : Client Config) (sourceName destName : string)
    (w : World Remote) :
  ∃ new,
    trace (copyParameter sdk (Some c) sourceName destName w).2 = trace w ++ new
    ∧ store_ops new =
        match GetParameter sdk (options c) (getInput sourceName) (remote w) with
        | (inl _, _) => [GetParameterCall (getInput sourceName)]
        | (inr out, st1) =>
            match DescribeParameters sdk (options c) (describeInput sourceName) st1 with
            | (inr dout, _) =>
                match DescribeParametersOutput.Parameters dout,
                      GetParameterOutput.Parameter_ out with
                | first :: _, Some (SsmParameter.mk (Some _) _ (Some _) as sp) =>
                    [GetParameterCall (getInput sourceName);
                     DescribeParametersCall (describeInput sourceName);
                     PutParameterCall
                       (putInput destName sp
                          (aws_ToString (ParameterMetadata.Description first)))]
                | _, _ =>
                    [GetParameterCall (getInput sourceName);
                     DescribeParametersCall (describeInput sourceName)]
                end
            | (inl _, _) =>
                [GetParameterCall (getInput sourceName);
                 DescribeParametersCall (describeInput sourceName)]
            end
        end.
Proof.
  rewrite copyParameter_run.
  destruct (GetParameter _ _ _ _) as [[err|out] st1].
  { eexists. split; reflexivity. }
  destruct (DescribeParameters _ _ _ _) as [[err|dout] st2].
  { eexists. split; reflexivity. }
  destruct (DescribeParametersOutput.Parameters dout) as [|first rest].
  { eexists. split; [reflexivity|].
    by destruct (GetParameterOutput.Parameter_ out) as [[[name|] ty [value|]]|]. }
  destruct (GetParameterOutput.Parameter_ out) as [[[name|] ty [value|]]|];
    try (eexists; split; reflexivity).
  cbv zeta. destruct (PutParameter _ _ _ _) as [[err|] st3].
  - eexists. split; reflexivity.
  - eexists. split; [reflexivity|]. rewrite store_ops_app. reflexivity.
Qed.

(** X5. The line "Success copied parameter from ... to ..." is among the
    events of a call of copyParameter exactly when the call returns nil:
    it is never printed on a failed copy. *)
Theorem copyParameter_success_line (c : Client Config) (sourceName destName : string)
    (w : World Remote) :
  ∃ new,
    trace (copyParameter sdk (Some c) sourceName destName w).2 = trace w ++ new
    ∧ (succeeded sourceName destName ∈ new
       ↔ (copyParameter sdk (Some c) sourceName destName w).1 = Returned None).
Proof.
  destruct (copyParameter_path c sourceName destName w) as (new & Hpath & Htrace).
  exists new. split; [exact Htrace|].
  destruct Hpath as [err|err| |sp d err|sp d];
    (split; [|try discriminate]);
    try (intros Hin; exfalso; revert Hin;
         unfold succeeded, written, described, fetched;
         rewrite ?elem_of_app, ?elem_of_cons, ?elem_of_nil;
         intros Hin; decompose [or] Hin; try done; discriminate).
  - done.
  - intros _. apply elem_of_app. right. apply elem_of_cons. by left.
Qed.
End ProgramPaths.

(** * More on main *)

Section ProgramRuns.
Context {Remote Config : Type} (sdk : Sdk Remote Config).

Lemma puts_cons_stdout (line : string) (tr : list event) : puts (Stdout line :: tr) = puts tr.
Proof. reflexivity. Qed.

(** A copy that returns nil has added one put, at the destination name. *)
Lemma copyParameter_done_puts (c : Client Config) (sourceName destName : string)
    (w w' : World Remote) :
  copyParameter sdk (Some c) sourceName destName w = (Returned None, w') →
  ∃ input, PutParameterInput.Name input = Some destName
           ∧ puts (trace w') = puts (trace w) ++ [input].
Proof.
  intros Hrun.
  destruct (copyParameter_path sdk c sourceName destName w) as (new & Hpath & Htrace).
  rewrite Hrun in Hpath, Htrace. cbn [fst snd] in *.
  inversion Hpath as [| | | |sp d Hres Hnew]. subst new.
  exists (putInput destName sp d). split; [done|].
  rewrite Htrace, !puts_app, puts_written. reflexivity.
Qed.


Lemma range_done_puts (c : Client Config) (order : list (string * string))
    (w w' : World Remote) :
  range order (main_body sdk (Some c)) w = (Returned (), w') →
  PutParameterInput.Name <$> puts (trace w')
  = (PutParameterInput.Name <$> puts (trace w)) ++ (Some <$> order.*2).
Proof.
  revert w. induction order as [|[old new] order IH]; intros w; simpl.
  - intros [= <-]. by rewrite app_nil_r.
  - rewrite bind_run, main_body_run.
    destruct (copyParameter _ _ _ _ _) as [[[e|]| | |] w2] eqn:Hcopy; try discriminate.
    intros Hrest. apply IH in Hrest. rewrite Hrest.
    apply copyParameter_done_puts in Hcopy as (input & Hname & Hputs).
    rewrite Hputs. cbn [trace]. rewrite puts_app. cbn [puts omap]. rewrite app_nil_r.
    rewrite fmap_app. cbn [fmap list_fmap]. rewrite Hname, <- app_assoc. reflexivity.
Qed.

(** X7. A loop of main that runs to its end has written every pair once
    and in order: the put requests it has added are as many as the pairs,
    and their names are the new names of the pairs. *)
Theorem range_all_copied (c : Client Config) (order : list (string * string))
    (w w' : World Remote) :
  range order (main_body sdk (Some c)) w = (Returned (), w') →
  PutParameterInput.Name <$> puts (trace w')
  = (PutParameterInput.Name <$> puts (trace w)) ++ (Some <$> order.*2)
  ∧ length (puts (trace w')) = (length (puts (trace w)) + length order)%nat.
Proof.
  intros Hrun%range_done_puts. split; [exact Hrun|].
  apply (f_equal length) in Hrun.
  by rewrite length_app, !length_fmap in Hrun.
Qed.


(** X9. The fields of the fetched parameter are dereferenced without a
    check: when the get succeeds with a nil parameter, or one whose name or
    value is nil, and the description is found, copyParameter panics on a
    nil dereference after both reads, and nothing is written. *)
Theorem copyParameter_nil_field (c : Client Config) (sourceName destName : string)
    (w : World Remote) (out : GetParameterOutput.t) (dout : DescribeParametersOutput.t)
    (first : ParameterMetadata.t) (rest : list ParameterMetadata.t) (st1 st2 : Remote) :
  GetParameter sdk (options c) (getInput sourceName) (remote w) = (inr out, st1) →
  DescribeParameters sdk (options c) (describeInput sourceName) st1 = (inr dout, st2) →
  DescribeParametersOutput.Parameters dout = first :: rest →
  (GetParameterOutput.Parameter_ out = None
   ∨ ∃ sp, GetParameterOutput.Parameter_ out = Some sp
           ∧ (SsmParameter.Name sp = None ∨ SsmParameter.Value sp = None)) →
  copyParameter sdk (Some c) sourceName destName w
  = (Panicked nilDereference, mkWorld st2 (trace w ++ described sourceName))
  ∧ puts (trace (copyParameter sdk (Some c) sourceName destName w).2) = puts (trace w).
Proof.
  intros Hget Hdesc Hfirst Hnil.
  assert (copyParameter sdk (Some c) sourceName destName w
          = (Panicked nilDereference, mkWorld st2 (trace w ++ described sourceName))) as Hrun.
  { rewrite copyParameter_run, Hget, Hdesc, Hfirst.
    destruct Hnil as [->|(sp & -> & Hfield)]; [done|].
    destruct sp as [[n|] ty [v|]]; cbn in Hfield; destruct Hfield; done. }
  split; [exact Hrun|].
  rewrite Hrun. cbn [snd trace]. rewrite puts_app, puts_described. apply app_nil_r.
Qed.
End ProgramRuns.

(** * The requests of a whole run *)

Section ProgramRequests.
Context {Remote Config : Type} (sdk : Sdk Remote Config).

Lemma copy_path_targeted (sourceName destName : string) (res : outcome (option error))
    (new : list event) :
  copy_path sourceName destName res new → Forall targeted new.
Proof.
  assert (Forall targeted (described sourceName)) as Hdescribed.
  { unfold described, fetched. repeat constructor; by exists sourceName. }
  assert (∀ sp d, Forall targeted (written sourceName destName sp d)) as Hwritten.
  { intros sp d. unfold written. apply Forall_app. split; [done|]. by repeat constructor. }
  intros [err|err| |sp d err|sp d]; try done.
  - unfold fetched. repeat constructor. by exists sourceName.
  - apply Forall_app. split; [done|]. by repeat constructor.
Qed.

Lemma range_targeted (c : Client Config) (order : list (string * string))
    (w : World Remote) :
  Forall targeted (trace w) →
  Forall targeted (trace (range order (main_body sdk (Some c)) w).2).
Proof.
  revert w. induction order as [|[old new] order IH]; intros w Hw; simpl; [done|].
  rewrite bind_run, main_body_run.
  destruct (copyParameter_path sdk c old new
              (mkWorld (remote w) (trace w ++ [announced old new])))
    as (added & Hpath%copy_path_targeted & Htrace).
  assert (Forall targeted
            (trace (copyParameter sdk (Some c) old new
                      (mkWorld (remote w) (trace w ++ [announced old new]))).2)) as Hcopy.
  { rewrite Htrace. cbn [trace]. apply Forall_app. split; [|done].
    apply Forall_app. split; [done|]. by repeat constructor. }
  destruct (copyParameter _ _ _ _ _) as [[[err|]| | |] w']; cbn [snd trace] in *; try done.
  - apply Forall_app. split; [done|]. by repeat constructor.
  - by apply IH.
Qed.

Lemma store_ops_cons_stdout (line : string) (tr : list event) :
  store_ops (Stdout line :: tr) = store_ops tr.
Proof. reflexivity. Qed.

Lemma store_ops_fatal (line : string) : store_ops [Fatal line] = [].
Proof. reflexivity. Qed.

(** main up to its loop: the one configuration it loads, then either the
    fatal line or the loop through the client of that configuration. *)
Lemma main_for_connect (E : string) (order : list (string * string)) (w : World Remote) :
  main_for sdk E order w =
    match LoadDefaultConfig sdk (profile_of E) with
    | inl err =>
        (Exited 1,
         mkWorld (remote w)
           (trace w
            ++ [LoadDefaultConfigCall (profile_of E);
                Fatal ("failed to connect to AWS, "
                       +:+ Error (Errorf "unable to load SDK config, " err))]))
    | inr cfg =>
        range order (main_body sdk (Some (NewFromConfig cfg)))
          (mkWorld (remote w) (trace w ++ [LoadDefaultConfigCall (profile_of E)]))
    end.
Proof.
  unfold main_for, connectToAWSByProfile. rewrite profile_of_eqb.
  cbv beta iota zeta delta [mbind M_bind bind mret M_ret ret emit Fatalf].
  cbn [remote trace].
  destruct (LoadDefaultConfig sdk (profile_of E)) as [err|cfg];
    cbn [remote trace]; rewrite <- ?app_assoc; reflexivity.
Qed.

(** X8. Every read of a run of main is targeted: each get names one
    parameter and asks for decryption, each describe is filtered on one
    exact name and carries no token.  main never reads a secure value
    undecrypted and never lists the store. *)
Theorem main_reads_targeted (E : string) (order : list (string * string))
    (w : World Remote) :
  Forall targeted (trace w) →
  Forall targeted (trace (main_for sdk E order w).2).
Proof.
  intros Hw. rewrite main_for_connect.
  destruct (LoadDefaultConfig sdk (profile_of E)) as [err|cfg].
  - cbn [snd trace]. apply Forall_app. split; [done|]. by repeat constructor.
  - apply range_targeted. cbn [trace]. apply Forall_app. split; [done|]. by repeat constructor.
Qed.

(** X11. When the configuration of the profile cannot be loaded, main
    exits with status 1 before any parameter work: the store is untouched,
    no store operation is sent, whatever the pairs, and the fatal line
    carries the wrapped cause. *)
Theorem main_connect_failure (E : string) (order : list (string * string))
    (w : World Remote) (err : error) :
  LoadDefaultConfig sdk (profile_of E) = inl err →
  (main_for sdk E order w).1 = Exited 1
  ∧ remote (main_for sdk E order w).2 = remote w
  ∧ store_ops (trace (main_for sdk E order w).2) = store_ops (trace w)
  ∧ last (trace (main_for sdk E order w).2)
    = Some (Fatal ("failed to connect to AWS, unable to load SDK config, " +:+ Error err)).
Proof.
  intros Hload. rewrite main_for_connect, Hload. cbn [fst snd remote trace].
  repeat split.
  - rewrite store_ops_app. cbn. apply app_nil_r.
  - rewrite last_app_cons. reflexivity.
Qed.

Lemma range_single (c : option (Client Config)) (k v : string) (w : World Remote) :
  range [(k, v)] (main_body sdk c) w = main_body sdk c k v w.
Proof.
  cbn [range]. rewrite bind_run.
  by destruct (main_body sdk c k v w) as [[[]| | |] w'].
Qed.

Lemma copy_path_no_load (sourceName destName : string) (res : outcome (option error))
    (new : list event) (profile : string) :
  copy_path sourceName destName res new → LoadDefaultConfigCall profile ∉ new.
Proof. intros [err|err| |sp d err|sp d]; not_among. Qed.

(** X10. A whole run of main, for any environment and whatever the service
    answers.  main loads the configuration of the environment's profile,
    once; when that fails it stops there, and otherwise the rest of the
    run is the body of the loop for the one pair of REDISCLOUD_URL, through
    the client made from that configuration.  No other configuration is
    loaded, and the store operations are none in the first case and those
    of a single copy from the old to the new name in the second. *)
Theorem main_store_ops (E : string) (order : list (string * string)) (w : World Remote) :
  range_order (generateVariableNameMap E) order →
  main_for sdk E order w =
    match LoadDefaultConfig sdk (profile_of E) with
    | inl err =>
        (Exited 1,
         mkWorld (remote w)
           (trace w
            ++ [LoadDefaultConfigCall (profile_of E);
                Fatal ("failed to connect to AWS, "
                       +:+ Error (Errorf "unable to load SDK config, " err))]))
    | inr cfg =>
        main_body sdk (Some (NewFromConfig cfg))
          (generateOldVariableName E "REDISCLOUD_URL")
          (generateNewVariableName E "REDISCLOUD_URL")
          (mkWorld (remote w) (trace w ++ [LoadDefaultConfigCall (profile_of E)]))
    end
  ∧ ∃ rest,
      trace (main_for sdk E order w).2 = trace w ++ LoadDefaultConfigCall (profile_of E) :: rest
      ∧ (∀ profile, LoadDefaultConfigCall profile ∉ rest)
      ∧ match LoadDefaultConfig sdk (profile_of E) with
        | inl _ => store_ops rest = []
        | inr _ =>
            copy_ops (generateOldVariableName E "REDISCLOUD_URL")
              (generateNewVariableName E "REDISCLOUD_URL") (store_ops rest)
        end.
Proof.
  intros ->%range_order_generateVariableNameMap. rewrite main_for_connect.
  destruct (LoadDefaultConfig sdk (profile_of E)) as [err|cfg].
  { split; [reflexivity|]. eexists [_]. split; [reflexivity|].
    split; [|reflexivity]. intros profile. not_among. }
  rewrite range_single. split; [reflexivity|].
  set (old := generateOldVariableName E "REDISCLOUD_URL").
  set (new := generateNewVariableName E "REDISCLOUD_URL").
  set (w0 := mkWorld (remote w) (trace w ++ [LoadDefaultConfigCall (profile_of E)])).
  rewrite main_body_run.
  destruct (copyParameter_path sdk (NewFromConfig cfg) old new
              (mkWorld (remote w0) (trace w0 ++ [announced old new])))
    as (added & Hpath & Htrace).
  pose proof (copy_path_ops _ _ _ _ Hpath) as Hops.
  assert (∀ profile, LoadDefaultConfigCall profile ∉ added) as Hload.
  { intros profile. by eapply copy_path_no_load. }
  clear Hpath. subst w0. cbn [trace remote] in Htrace.
  destruct (copyParameter _ _ _ _ _) as [[[err|]| | |] w']; cbn [snd trace] in *;
    rewrite Htrace, <- !app_assoc; cbn [app];
    (eexists; split; [reflexivity|]);
    (split;
     [intros profile; unfold announced;
      rewrite ?elem_of_cons, ?elem_of_app, ?elem_of_cons, ?elem_of_nil;
      intros Hin; decompose [or] Hin; try done; try discriminate; by eapply Hload
     |unfold announced; rewrite store_ops_cons_stdout, ?store_ops_app, ?store_ops_fatal,
        ?app_nil_r; exact Hops]).
Qed.
End ProgramRequests.

(** * The order of the pairs *)

Section ProgramOrder.
Context {Remote Config : Type} (sdk : Sdk Remote Config).






End ProgramOrder.

(** * The further properties at work on the in-memory store *)

Lemma range_all_copied_witness :
  PutParameterInput.Name <$> puts (trace Fake.firstDone)
  = (PutParameterInput.Name <$> puts (trace (Fake.start Fake.staging)))
    ++ (Some <$> [(Fake.oldName, Fake.newName)].*2)
  ∧ length (puts (trace Fake.firstDone))
    = (length (puts (trace (Fake.start Fake.staging)))
       + length [(Fake.oldName, Fake.newName)])%nat.
Proof.
  apply (range_all_copied Fake.sdk Fake.stg [(Fake.oldName, Fake.newName)]
           (Fake.start Fake.staging) Fake.firstDone).
  reflexivity.
Defined.


Lemma copyParameter_nil_field_witness :
  (copyParameter Edge.sdkNilParameter (Some Fake.stg) Fake.oldName Fake.newName
     (Fake.start Fake.staging)
   = (Panicked nilDereference,
      mkWorld Fake.staging (trace (Fake.start Fake.staging) ++ described Fake.oldName))
   ∧ puts (trace (copyParameter Edge.sdkNilParameter (Some Fake.stg) Fake.oldName
                    Fake.newName (Fake.start Fake.staging)).2)
     = puts (trace (Fake.start Fake.staging)))
  ∧ (copyParameter Edge.sdkNilValue (Some Fake.stg) Fake.oldName Fake.newName
       (Fake.start Fake.staging)).1 = Panicked nilDereference.
Proof.
  split.
  - apply (copyParameter_nil_field Edge.sdkNilParameter Fake.stg Fake.oldName Fake.newName
             (Fake.start Fake.staging) (GetParameterOutput.mk None)
             (DescribeParametersOutput.mk [Fake.metadata (Fake.oldName, Fake.redis)] None)
             (Fake.metadata (Fake.oldName, Fake.redis)) [] Fake.staging Fake.staging);
      try reflexivity.
    by left.
  - pose proof (copyParameter_nil_field Edge.sdkNilValue Fake.stg Fake.oldName Fake.newName
             (Fake.start Fake.staging)
             (GetParameterOutput.mk
                (Some (SsmParameter.mk (Some Fake.oldName) ParameterTypeString None)))
             (DescribeParametersOutput.mk [Fake.metadata (Fake.oldName, Fake.redis)] None)
             (Fake.metadata (Fake.oldName, Fake.redis)) [] Fake.staging Fake.staging
             eq_refl eq_refl eq_refl) as Hnil.
    destruct Hnil as [Hrun _].
    + right. eexists. split; [reflexivity|]. by right.
    + by rewrite Hrun.
Defined.

Lemma main_reads_targeted_witness :
  Forall targeted
    (trace (main_for Fake.sdk "staging" [(Fake.oldName, Fake.newName)]
              (Fake.start Fake.staging)).2).
Proof.
  apply (main_reads_targeted Fake.sdk "staging" [(Fake.oldName, Fake.newName)]
           (Fake.start Fake.staging)).
  apply Forall_nil. exact I.
Defined.

Lemma main_connect_failure_witness :
  (main_for Edge.sdkNoConfig "staging" Fake.threePairs (Fake.start Fake.staging)).1 = Exited 1
  ∧ remote (main_for Edge.sdkNoConfig "staging" Fake.threePairs
              (Fake.start Fake.staging)).2
    = remote (Fake.start Fake.staging)
  ∧ store_ops (trace (main_for Edge.sdkNoConfig "staging" Fake.threePairs
                        (Fake.start Fake.staging)).2)
    = store_ops (trace (Fake.start Fake.staging))
  ∧ last (trace (main_for Edge.sdkNoConfig "staging" Fake.threePairs
                   (Fake.start Fake.staging)).2)
    = Some (Fatal ("failed to connect to AWS, unable to load SDK config, "
                   +:+ Error (errorString "no profile aa_stg"))).
Proof.
  apply (main_connect_failure Edge.sdkNoConfig "staging" Fake.threePairs
           (Fake.start Fake.staging) (errorString "no profile aa_stg")).
  reflexivity.
Defined.

Lemma main_store_ops_witness :
  main_for Fake.sdk "staging" [(Fake.oldName, Fake.newName)] (Fake.start Fake.staging)
  = main_body Fake.sdk (Some (NewFromConfig "aa_stg")) Fake.oldName Fake.newName
      (mkWorld Fake.staging [LoadDefaultConfigCall "aa_stg"])
  ∧ ∃ rest,
      trace (main_for Fake.sdk "staging" [(Fake.oldName, Fake.newName)]
               (Fake.start Fake.staging)).2
      = trace (Fake.start Fake.staging) ++ LoadDefaultConfigCall (profile_of "staging") :: rest
      ∧ (∀ profile, LoadDefaultConfigCall profile ∉ rest)
      ∧ copy_ops (generateOldVariableName "staging" "REDISCLOUD_URL")
          (generateNewVariableName "staging" "REDISCLOUD_URL") (store_ops rest).
Proof.
  apply (main_store_ops Fake.sdk "staging" [(Fake.oldName, Fake.newName)]
           (Fake.start Fake.staging)).
  unfold range_order. rewrite generateVariableNameMap_singleton, map_to_list_singleton.
  reflexivity.
Defined.


